(** * Token scanner API: the HTTP routes of [server/routes.py]

    The module [server/routes.py] registers four coroutines on a FastAPI
    router.  One is a health check; the other three each build a one-element
    list of awaitables from a function of [src.server.database], await
    [asyncio.gather] on it, test the gathered list for truth and shape a JSON
    body.

    The embedding is shallow:
    - Python values are the inductive [value]; [truthy] is Python's [bool()];
    - a coroutine is a [task]: a function of the state of the world that
      returns or raises, together with the state it leaves behind;
    - the functions imported from [src.server.database] are the fields of a
      record [database], over which every handler is parameterised;
    - the module [Tasks] has the handlers again with the context of the
      running task in the state, to compare the gather with a plain
      await. *)

From Stdlib Require Import List String Ascii ZArith.
Import ListNotations.

Open Scope string_scope.

Set Warnings "-register-all".

(** ** Python values *)

(** The values that travel through the handlers.  A [str] is held as its
    UTF-8 bytes, a [dict] as its items in insertion order. *)
Inductive value : Type :=
| VNone
| VBool (b : bool)
| VInt (n : Z)
| VStr (s : string)
| VList (items : list value)
| VDict (items : list (string * value)).

(** Python's truth value testing, as [if result:] applies it: [None],
    [False], zero and the empty string, list and dict are false. *)
Definition truthy (v : value) : bool :=
  match v with
  | VNone => false
  | VBool b => b
  | VInt n => negb (n =? 0)%Z
  | VStr s => negb (Nat.eqb (String.length s) 0)
  | VList items => negb (Nat.eqb (List.length items) 0)
  | VDict items => negb (Nat.eqb (List.length items) 0)
  end.

(** The keys of a [dict], in order; [[]] for anything else. *)
Definition keys (v : value) : list string :=
  match v with
  | VDict items => map fst items
  | _ => []
  end.

(** [d[k]] on a value: the first item stored under [k]. *)
Fixpoint lookup (k : string) (items : list (string * value)) : option value :=
  match items with
  | [] => None
  | (k', v) :: rest => if String.eqb k k' then Some v else lookup k rest
  end.

Definition getitem (v : value) (k : string) : option value :=
  match v with
  | VDict items => lookup k items
  | _ => None
  end.

(** ** Coroutines *)

Section Routes.

(** The state outside the process (the database behind the collaborators)
    and the exceptions a coroutine may raise are left abstract. *)
Variable world : Type.
Variable exn : Type.

Inductive outcome (A : Type) : Type :=
| Returned (a : A)
| Raised (e : exn).

Arguments Returned {A} a.
Arguments Raised {A} e.

(** An awaitable: run from a state, it returns or raises and leaves a
    state. *)
Definition task (A : Type) : Type := world -> outcome A * world.

Definition ret {A : Type} (a : A) : task A :=
  fun w => (Returned a, w).

Definition bind {A B : Type} (c : task A) (k : A -> task B) : task B :=
  fun w =>
    match c w with
    | (Returned a, w') => k a w'
    | (Raised e, w') => (Raised e, w')
    end.

Notation "x <- c ;; k" := (bind c (fun x => k))
  (at level 61, c at next level, right associativity).

(** [await c]: the awaiting coroutine is suspended until [c] is done, and
    resumes with its value or its exception. *)
Definition await {A : Type} (c : task A) : task A := c.

(** [asyncio.gather] applied to the unpacked list [aws], with the default
    [return_exceptions=False], as it is seen from outside the process when
    nothing cancels it: the results of the awaitables, in the order of the
    arguments; the first exception raised is the exception of the gather.
    The awaitables are run here one after the other, which is the only
    schedule there is for the one-element lists the handlers build.  The
    task that the library runs each awaitable in is left to [Tasks]
    below. *)
Fixpoint gather (aws : list (task value)) : task (list value) :=
  match aws with
  | [] => ret []
  | c :: rest =>
      v <- c ;;
      vs <- gather rest ;;
      ret (v :: vs)
  end.

(** ** The collaborators *)

(** [from src.server.database import retrieve_balance,
    retrieve_top_balances, retrieve_holder_weekly_change]: three coroutine
    functions whose bodies live in another module. *)
Record database : Type := {
  retrieve_balance : string -> task value;
  retrieve_top_balances : task value;
  retrieve_holder_weekly_change : string -> task value
}.

Variable db : database.

(** ** The handlers *)

(** [@router.get("/")] *)
Definition get_notes : task value :=
  ret (VDict [("message", VStr "🪙 Token indexer server is up and running!")]).

(** [@router.get("/balance/{address}")] *)
Definition get_token_balance (address : string) : task value :=
  let futures := [retrieve_balance db address] in
  result <- await (gather futures) ;;
  if truthy (VList result)
  then ret (VDict [("result", VList result)])
  else ret (VDict [("error", VStr "wallet not found")]).

(** [@router.get("/top")] *)
Definition get_top_holders : task value :=
  let futures := [retrieve_top_balances db] in
  result <- await (gather futures) ;;
  if truthy (VList result)
  then ret (VDict [("result", VList result)])
  else ret (VDict [("error", VStr "No holders found")]).

(** [@router.get("/weekly/{address}")] *)
Definition get_holder_weekly_change (env_vars : value) (address : string)
  : task value :=
  let futures := [retrieve_holder_weekly_change db address] in
  result <- await (gather futures) ;;
  if truthy (VList result)
  then ret (VDict [("result", VList result)])
  else ret (VDict [("error", VStr "wallet not found")]).

(** ** The router *)

(** A request the router has matched, with the parameters the framework
    hands to the coroutine. *)
Inductive request : Type :=
| GetRoot
| GetBalance (address : string)
| GetTop
| GetWeekly (env_vars : value) (address : string).

(** [router = APIRouter()] after the four [@router.get] registrations. *)
Definition router (req : request) : task value :=
  match req with
  | GetRoot => get_notes
  | GetBalance address => get_token_balance address
  | GetTop => get_top_holders
  | GetWeekly env_vars address => get_holder_weekly_change env_vars address
  end.

End Routes.

Arguments Returned {exn A} a.
Arguments Raised {exn A} e.
Arguments ret {world exn A} a _.
Arguments bind {world exn A B} c k _.
Arguments await {world exn A} c _.
Arguments gather {world exn} aws _.
Arguments retrieve_balance {world exn} d _ _.
Arguments retrieve_top_balances {world exn} d _.
Arguments retrieve_holder_weekly_change {world exn} d _ _.
Arguments get_notes {world exn} _.
Arguments get_token_balance {world exn} db address _.
Arguments get_top_holders {world exn} db _.
Arguments get_holder_weekly_change {world exn} db env_vars address _.
Arguments router {world exn} db req _.

(** ** Sample collaborators *)

Module Sample.

(** The world of the samples is the journal of the queries made so far,
    latest first; exceptions are named by a string. *)
Definition journal : Type := list string.

(** A database over a ledger of balances and a table of weekly changes.  An
    address that is not in the ledger has balance [None], one that is not in
    the table has change [None]; the holders are listed as
    [[address, balance]] pairs in ledger order. *)
Definition ledger_db (ledger changes : list (string * value))
  : database journal string :=
  {| retrieve_balance := fun address w =>
       (Returned (match lookup address ledger with
                  | Some balance => balance
                  | None => VNone
                  end),
        ("balance " ++ address) :: w);
     retrieve_top_balances := fun w =>
       (Returned (VList (map (fun h => VList [VStr (fst h); snd h]) ledger)),
        "top" :: w);
     retrieve_holder_weekly_change := fun address w =>
       (Returned (match lookup address changes with
                  | Some change => change
                  | None => VNone
                  end),
        ("weekly " ++ address) :: w) |}.

(** A database whose every query raises [e] after it was journalled. *)
Definition broken_db (e : string) : database journal string :=
  {| retrieve_balance := fun address w =>
       (Raised e, ("balance " ++ address) :: w);
     retrieve_top_balances := fun w => (Raised e, "top" :: w);
     retrieve_holder_weekly_change := fun address w =>
       (Raised e, ("weekly " ++ address) :: w) |}.

Definition holders : list (string * value) :=
  [("0xb0b", VInt 70); ("0xa11ce", VInt 900); ("0xcafe", VInt 5)].

Definition changes : list (string * value) :=
  [("0xb0b", VInt (-3)); ("0xa11ce", VInt 0)].

End Sample.

(** ** The collaborator call of a route *)

Section Calls.

Variable world : Type.
Variable exn : Type.
Variable db : database world exn.

(** The awaitable that the handler of a route puts in its list [futures]:
    [retrieve_balance(address)], [retrieve_top_balances()] or
    [retrieve_holder_weekly_change(address)]; [get_notes] builds none. *)
Definition collaborator_call (req : request)
  : option (task world exn value) :=
  match req with
  | GetRoot => None
  | GetBalance address => Some (retrieve_balance db address)
  | GetTop => Some (retrieve_top_balances db)
  | GetWeekly _ address => Some (retrieve_holder_weekly_change db address)
  end.

(** What that awaitable does when it is run from [w]. *)
Definition collaborator_outcome (req : request) (w : world)
  : option (outcome exn value * world) :=
  match collaborator_call req with
  | Some c => Some (c w)
  | None => None
  end.

(** ** A database that records its calls *)

(** One entry per call of a function of [src.server.database], with the
    argument it was given. *)
Inductive call : Type :=
| CallBalance (address : string)
| CallTop
| CallWeekly (address : string).

(** The calls that the body of each handler makes, read off its list
    [futures]. *)
Definition calls_of (req : request) : list call :=
  match req with
  | GetRoot => []
  | GetBalance address => [CallBalance address]
  | GetTop => [CallTop]
  | GetWeekly _ address => [CallWeekly address]
  end.

(** [db] with a record of the calls made beside its world, latest first:
    every function notes its call, then does what it does in [db]. *)
Definition traced : database (world * list call) exn :=
  {| retrieve_balance := fun address s =>
       let (o, w') := retrieve_balance db address (fst s) in
       (o, (w', CallBalance address :: snd s));
     retrieve_top_balances := fun s =>
       let (o, w') := retrieve_top_balances db (fst s) in
       (o, (w', CallTop :: snd s));
     retrieve_holder_weekly_change := fun address s =>
       let (o, w') := retrieve_holder_weekly_change db address (fst s) in
       (o, (w', CallWeekly address :: snd s)) |}.

End Calls.

Arguments collaborator_call {world exn} db req.
Arguments collaborator_outcome {world exn} db req w.
Arguments traced {world exn} db.

(** ** The task a gathered coroutine runs in *)

Module Tasks.

(** The context of a task: the values given to its context variables,
    latest first. *)
Definition context : Type := list (string * value).

Section WithContext.

(** The state outside the process and the exceptions, as in [Routes]. *)
Variable outside : Type.
Variable exn : Type.

(** What a coroutine runs in: the context of the task that runs it, and the
    state outside the process. *)
Definition state : Type := context * outside.

Notation "x <- c ;; k" := (bind c (fun x => k))
  (at level 61, c at next level, right associativity).

(** What a run has left behind. *)
Definition response {A : Type} (r : outcome exn A * state) : outcome exn A :=
  fst r.

Definition context_after {A : Type} (r : outcome exn A * state) : context :=
  fst (snd r).

Definition outside_after {A : Type} (r : outcome exn A * state) : outside :=
  snd (snd r).

(** [asyncio.ensure_future(c)], which [asyncio.gather] applies to each
    coroutine it is given: [c] becomes a Task, and a Task runs in a copy of
    the context that was current when it was made.  What [c] sets in its
    copy is not seen by the task that awaits it; what it does outside the
    process is. *)
Definition in_task {A : Type} (c : task state exn A) : task state exn A :=
  fun s => let (o, s') := c s in (o, (fst s, snd s')).

(** [asyncio.gather] with the task of each awaitable: as [gather] of
    [Routes], each awaitable in a task of its own.  Cancellation is not
    modelled. *)
Fixpoint gather (aws : list (task state exn value))
  : task state exn (list value) :=
  match aws with
  | [] => ret []
  | c :: rest =>
      v <- in_task c ;;
      vs <- gather rest ;;
      ret (v :: vs)
  end.

Variable db : database state exn.

(** The three query handlers of [routes.py], on this [gather]. *)
Definition get_token_balance (address : string) : task state exn value :=
  let futures := [retrieve_balance db address] in
  result <- await (gather futures) ;;
  if truthy (VList result)
  then ret (VDict [("result", VList result)])
  else ret (VDict [("error", VStr "wallet not found")]).

Definition get_top_holders : task state exn value :=
  let futures := [retrieve_top_balances db] in
  result <- await (gather futures) ;;
  if truthy (VList result)
  then ret (VDict [("result", VList result)])
  else ret (VDict [("error", VStr "No holders found")]).

Definition get_holder_weekly_change (env_vars : value) (address : string)
  : task state exn value :=
  let futures := [retrieve_holder_weekly_change db address] in
  result <- await (gather futures) ;;
  if truthy (VList result)
  then ret (VDict [("result", VList result)])
  else ret (VDict [("error", VStr "wallet not found")]).

(** The handlers as the design notes would have them await: the gather is
    replaced by one await of the collaborator call, whose value is put in a
    one-element list; the rest of each body is kept. *)
Definition get_token_balance_plain (address : string)
  : task state exn value :=
  v <- await (retrieve_balance db address) ;;
  let result := [v] in
  if truthy (VList result)
  then ret (VDict [("result", VList result)])
  else ret (VDict [("error", VStr "wallet not found")]).

Definition get_top_holders_plain : task state exn value :=
  v <- await (retrieve_top_balances db) ;;
  let result := [v] in
  if truthy (VList result)
  then ret (VDict [("result", VList result)])
  else ret (VDict [("error", VStr "No holders found")]).

Definition get_holder_weekly_change_plain (env_vars : value)
  (address : string) : task state exn value :=
  v <- await (retrieve_holder_weekly_change db address) ;;
  let result := [v] in
  if truthy (VList result)
  then ret (VDict [("result", VList result)])
  else ret (VDict [("error", VStr "wallet not found")]).

(** [db] as a request made in the context [ctx] sees it from outside the
    process: each function is run in [ctx], and what it leaves in the
    context is dropped. *)
Definition seen_from_outside (ctx : context) : database outside exn :=
  {| retrieve_balance := fun address w =>
       let (o, s') := retrieve_balance db address (ctx, w) in (o, snd s');
     retrieve_top_balances := fun w =>
       let (o, s') := retrieve_top_balances db (ctx, w) in (o, snd s');
     retrieve_holder_weekly_change := fun address w =>
       let (o, s') := retrieve_holder_weekly_change db address (ctx, w) in
       (o, snd s') |}.

End WithContext.

Arguments response {outside exn A} r.
Arguments context_after {outside exn A} r.
Arguments outside_after {outside exn A} r.
Arguments in_task {outside exn A} c _.
Arguments gather {outside exn} aws _.
Arguments get_token_balance {outside exn} db address _.
Arguments get_top_holders {outside exn} db _.
Arguments get_holder_weekly_change {outside exn} db env_vars address _.
Arguments get_token_balance_plain {outside exn} db address _.
Arguments get_top_holders_plain {outside exn} db _.
Arguments get_holder_weekly_change_plain {outside exn} db env_vars address _.
Arguments seen_from_outside {outside exn} db ctx.

(** A database layer that keeps its session in a context variable: every
    query sets [db_session] in the context it runs in, journals itself and
    answers from the ledger as [Sample.ledger_db] does. *)
Definition session_db (ledger changes : list (string * value))
  : database (state Sample.journal) string :=
  {| retrieve_balance := fun address s =>
       (Returned (match lookup address ledger with
                  | Some balance => balance
                  | None => VNone
                  end),
        (("db_session", VStr "open") :: fst s,
         ("balance " ++ address) :: snd s));
     retrieve_top_balances := fun s =>
       (Returned (VList (map (fun h => VList [VStr (fst h); snd h]) ledger)),
        (("db_session", VStr "open") :: fst s, "top" :: snd s));
     retrieve_holder_weekly_change := fun address s =>
       (Returned (match lookup address changes with
                  | Some change => change
                  | None => VNone
                  end),
        (("db_session", VStr "open") :: fst s,
         ("weekly " ++ address) :: snd s)) |}.

End Tasks.

(** * Properties *)

Section Runs.

Context {world exn : Type}.
Variable db : database world exn.

(** ** Values *)

(** The status text is held as the 44 bytes of its UTF-8 encoding, the
    first four being the coin emoji U+1FA99. *)
Lemma get_notes_message_utf8 (w : world) :
  exists body text,
    @get_notes world exn w = (Returned body, w) /\
    getitem body "message" = Some (VStr text) /\
    String.length text = 44 /\
    map nat_of_ascii (list_ascii_of_string (substring 0 4 text)) =
      [240; 159; 170; 153] /\
    substring 4 40 text = " Token indexer server is up and running!".
Proof.
  eexists _, _. repeat split.
Qed.

(** ** The gather of one awaitable *)

(** A non-empty list is true, whatever it holds. *)
Lemma truthy_cons (v : value) (vs : list value) :
  truthy (VList (v :: vs)) = true.
Proof. reflexivity. Qed.

(** The truth of the wrapper list is not the truth of what it wraps. *)
Lemma truthy_wrapper_of_falsy :
  forall v, In v [VNone; VBool false; VInt 0; VStr ""; VList []; VDict []] ->
            truthy v = false /\ truthy (VList [v]) = true.
Proof.
  intros v Hin; simpl in Hin.
  repeat (destruct Hin as [<- | Hin]; [split; reflexivity |]).
  contradiction.
Qed.

(** The laws of [bind] that the handlers need, at each state. *)
Lemma bind_ret_l {A B : Type} (a : A) (k : A -> task world exn B) (w : world) :
  bind (ret a) k w = k a w.
Proof. reflexivity. Qed.

Lemma bind_assoc {A B C : Type} (c : task world exn A)
  (k : A -> task world exn B) (h : B -> task world exn C) (w : world) :
  bind (bind c k) h w = bind c (fun a => bind (k a) h) w.
Proof.
  unfold bind. destruct (c w) as [[a | e] w1]; reflexivity.
Qed.

Lemma bind_ext {A B : Type} (c c' : task world exn A)
  (k k' : A -> task world exn B) :
  (forall w, c w = c' w) ->
  (forall a w, k a w = k' a w) ->
  forall w, bind c k w = bind c' k' w.
Proof.
  intros Hc Hk w. unfold bind. rewrite Hc.
  destruct (c' w) as [[a | e] w1]; [apply Hk | reflexivity].
Qed.

(** Gathering one awaitable is awaiting it and putting its value in a
    list. *)
Lemma gather_singleton (c : task world exn value) (w : world) :
  gather [c] w = bind c (fun v => ret [v]) w.
Proof.
  unfold gather, bind, ret.
  destruct (c w) as [[v | e] w1]; reflexivity.
Qed.

(** Hence what follows the gather of one awaitable follows the awaitable
    itself, with its value in a list. *)
Lemma bind_gather_singleton {B : Type} (c : task world exn value)
  (k : list value -> task world exn B) (w : world) :
  bind (gather [c]) k w = bind c (fun v => k [v]) w.
Proof.
  transitivity (bind (bind c (fun v => ret [v])) k w).
  - apply bind_ext; [apply gather_singleton | reflexivity].
  - rewrite bind_assoc. apply bind_ext; [reflexivity |].
    intros v w0. apply bind_ret_l.
Qed.

(** A gather that returns has one result per awaitable. *)
Lemma gather_length (aws : list (task world exn value)) :
  forall w vs w', gather aws w = (Returned vs, w') ->
                  List.length vs = List.length aws.
Proof.
  induction aws as [| c rest IH]; intros w vs w' Hrun.
  - inversion Hrun; reflexivity.
  - simpl in Hrun. unfold bind at 1 in Hrun.
    destruct (c w) as [[v | e] w1]; [| discriminate].
    unfold bind at 1 in Hrun.
    destruct (gather rest w1) as [[vs1 | e] w2] eqn:Hrest; [| discriminate].
    inversion Hrun; subst. simpl. f_equal. exact (IH _ _ _ Hrest).
Qed.

(** ** What each handler computes from its collaborator's outcome *)

Ltac run_handler c :=
  unfold await, gather, bind, ret;
  destruct c as [[v | e] w1]; reflexivity.

Lemma get_token_balance_run (address : string) (w : world) :
  get_token_balance db address w =
  match retrieve_balance db address w with
  | (Returned v, w') => (Returned (VDict [("result", VList [v])]), w')
  | (Raised e, w') => (Raised e, w')
  end.
Proof.
  unfold get_token_balance. run_handler (retrieve_balance db address w).
Qed.

Lemma get_top_holders_run (w : world) :
  get_top_holders db w =
  match retrieve_top_balances db w with
  | (Returned v, w') => (Returned (VDict [("result", VList [v])]), w')
  | (Raised e, w') => (Raised e, w')
  end.
Proof.
  unfold get_top_holders. run_handler (retrieve_top_balances db w).
Qed.

Lemma get_holder_weekly_change_run (env_vars : value) (address : string)
  (w : world) :
  get_holder_weekly_change db env_vars address w =
  match retrieve_holder_weekly_change db address w with
  | (Returned v, w') => (Returned (VDict [("result", VList [v])]), w')
  | (Raised e, w') => (Raised e, w')
  end.
Proof.
  unfold get_holder_weekly_change.
  run_handler (retrieve_holder_weekly_change db address w).
Qed.

End Runs.

Section Properties.

Context {world exn : Type}.
Variable db : database world exn.

(** ** The balance route *)

(** C1. Whatever value [retrieve_balance address] returns, a null or empty
    one included, the gathered one-element list is true, the handler of
    GET /balance/{address} returns the success envelope around it, and it
    does not return the error envelope. *)
Theorem balance_always_success (address : string) (w w' : world) (v : value) :
  retrieve_balance db address w = (Returned v, w') ->
  truthy (VList [v]) = true /\
  get_token_balance db address w =
    (Returned (VDict [("result", VList [v])]), w') /\
  forall w'', get_token_balance db address w <>
    (Returned (VDict [("error", VStr "wallet not found")]), w'').
Proof.
  intros Hcall. rewrite get_token_balance_run, Hcall.
  split; [reflexivity | split; [reflexivity |]].
  intros w'' Habs. discriminate Habs.
Qed.

(** C5. When [retrieve_balance address] returns a balance, the handler of
    GET /balance/{address} returns the dictionary whose only item is
    "result", bound to the one-element list of that very balance, and
    leaves the world as the collaborator left it. *)
Theorem balance_result_is_collaborator_value
  (address : string) (w w' : world) (balance : value) :
  retrieve_balance db address w = (Returned balance, w') ->
  exists body,
    get_token_balance db address w = (Returned body, w') /\
    body = VDict [("result", VList [balance])] /\
    getitem body "result" = Some (VList [balance]).
Proof.
  intros Hcall. exists (VDict [("result", VList [balance])]).
  rewrite get_token_balance_run, Hcall. repeat split.
Qed.

(** ** The top-holders route *)

(** C6. When [retrieve_top_balances] returns a list of holders, the success
    body of GET /top holds that list as the collaborator gave it: the same
    holders at the same positions, inside the one-element result list. *)
Theorem top_holders_order_kept (w w' : world) (holders : list value) :
  retrieve_top_balances db w = (Returned (VList holders), w') ->
  get_top_holders db w =
    (Returned (VDict [("result", VList [VList holders])]), w') /\
  forall body, get_top_holders db w = (Returned body, w') ->
    exists listed,
      getitem body "result" = Some (VList [VList listed]) /\
      List.length listed = List.length holders /\
      forall i, nth_error listed i = nth_error holders i.
Proof.
  intros Hcall. rewrite get_top_holders_run, Hcall. split; [reflexivity |].
  intros body Hbody. inversion Hbody; subst body.
  exists holders. repeat split.
Qed.

(** ** The weekly route *)

(** C3. The response of GET /weekly/{address} does not depend on [env_vars]:
    two runs of the handler whose collaborator call
    [retrieve_holder_weekly_change address] has the same outcome have the
    same outcome, whatever the two values of [env_vars]. *)
Theorem weekly_independent_of_env_vars
  (db' : database world exn) (env_vars env_vars' : value) (address : string)
  (w1 w2 : world) :
  retrieve_holder_weekly_change db address w1 =
    retrieve_holder_weekly_change db' address w2 ->
  get_holder_weekly_change db env_vars address w1 =
    get_holder_weekly_change db' env_vars' address w2.
Proof.
  intros Hsame. rewrite !get_holder_weekly_change_run, Hsame. reflexivity.
Qed.

(** ** All routes *)

(** C4. GET / returns the static payload, from every state of the world and
    whatever the exception type: it does not raise and leaves the state as
    it found it. *)
Theorem get_notes_static (w : world) :
  @get_notes world exn w =
  (Returned
     (VDict [("message", VStr "🪙 Token indexer server is up and running!")]),
   w).
Proof. reflexivity. Qed.

(** C8. No handler catches what its collaborator raises: when
    [retrieve_balance], [retrieve_top_balances] or
    [retrieve_holder_weekly_change] raises [e], the handler that called it
    raises the same [e] and returns no response. *)
Theorem collaborator_exceptions_propagate
  (env_vars : value) (address : string) (w : world) (e : exn) :
  (forall w', retrieve_balance db address w = (Raised e, w') ->
     get_token_balance db address w = (Raised e, w') /\
     forall r w'', get_token_balance db address w <> (Returned r, w'')) /\
  (forall w', retrieve_top_balances db w = (Raised e, w') ->
     get_top_holders db w = (Raised e, w') /\
     forall r w'', get_top_holders db w <> (Returned r, w'')) /\
  (forall w', retrieve_holder_weekly_change db address w = (Raised e, w') ->
     get_holder_weekly_change db env_vars address w = (Raised e, w') /\
     forall r w'',
       get_holder_weekly_change db env_vars address w <> (Returned r, w'')).
Proof.
  repeat split; intros;
    match goal with
    | Hcall : _ = (Raised e, _) |- _ =>
        first [ rewrite get_token_balance_run
              | rewrite get_top_holders_run
              | rewrite get_holder_weekly_change_run ];
        rewrite Hcall
    end;
    [reflexivity | discriminate | reflexivity | discriminate
    | reflexivity | discriminate].
Qed.

(** C9. A response that a handler returns normally is a dictionary with
    exactly one key: "message" for GET /, and "result" or "error" for the
    three query routes. *)
Theorem response_has_one_key (req : request) (w w' : world) (r : value) :
  router db req w = (Returned r, w') ->
  exists k v,
    r = VDict [(k, v)] /\
    keys r = [k] /\
    match req with
    | GetRoot => k = "message"
    | _ => k = "result" \/ k = "error"
    end.
Proof.
  destruct req as [| address | | env_vars address]; simpl; intros Hrun.
  - inversion Hrun; subst. eexists _, _. repeat split.
  - rewrite get_token_balance_run in Hrun.
    destruct (retrieve_balance db address w) as [[v | e] w1];
      inversion Hrun; subst.
    eexists _, _. split; [reflexivity | split; [reflexivity | now left]].
  - rewrite get_top_holders_run in Hrun.
    destruct (retrieve_top_balances db w) as [[v | e] w1];
      inversion Hrun; subst.
    eexists _, _. split; [reflexivity | split; [reflexivity | now left]].
  - rewrite get_holder_weekly_change_run in Hrun.
    destruct (retrieve_holder_weekly_change db address w) as [[v | e] w1];
      inversion Hrun; subst.
    eexists _, _. split; [reflexivity | split; [reflexivity | now left]].
Qed.

(** C10. GET /top and GET /weekly/{address} do not return their error
    envelopes either: whatever their collaborator returns, an empty holder
    list or a null change included, the gathered one-element list is true
    and the success envelope is returned. *)
Theorem top_and_weekly_always_success
  (env_vars : value) (address : string) (w : world) :
  (forall v w', retrieve_top_balances db w = (Returned v, w') ->
     truthy (VList [v]) = true /\
     get_top_holders db w = (Returned (VDict [("result", VList [v])]), w') /\
     forall w'', get_top_holders db w <>
       (Returned (VDict [("error", VStr "No holders found")]), w'')) /\
  (forall v w', retrieve_holder_weekly_change db address w = (Returned v, w') ->
     truthy (VList [v]) = true /\
     get_holder_weekly_change db env_vars address w =
       (Returned (VDict [("result", VList [v])]), w') /\
     forall w'', get_holder_weekly_change db env_vars address w <>
       (Returned (VDict [("error", VStr "wallet not found")]), w'')).
Proof.
  split; intros v w' Hcall.
  - rewrite get_top_holders_run, Hcall.
    split; [apply truthy_cons | split; [reflexivity | discriminate]].
  - rewrite get_holder_weekly_change_run, Hcall.
    split; [apply truthy_cons | split; [reflexivity | discriminate]].
Qed.

End Properties.

(** * The routes on the sample collaborators *)

Import Sample.

(** C2. An address that the collaborator reports as absent, by returning
    [None], does not get the error envelope from GET /balance/{address}: the
    handler answers with the success envelope around [[None]]. *)
Theorem balance_absent_wallet_reported_found :
  lookup "0xdead" holders = None /\
  retrieve_balance (ledger_db holders changes) "0xdead" [] =
    (Returned VNone, ["balance 0xdead"]) /\
  get_token_balance (ledger_db holders changes) "0xdead" [] =
    (Returned (VDict [("result", VList [VNone])]), ["balance 0xdead"]) /\
  get_token_balance (ledger_db holders changes) "0xdead" [] <>
    (Returned (VDict [("error", VStr "wallet not found")]), ["balance 0xdead"]).
Proof.
  repeat split. discriminate.
Qed.

(** ** Instances of the properties above *)

(** The balance route at an address that is not in the ledger, whose
    balance is [None]. *)
Lemma balance_always_success_witness :
  retrieve_balance (ledger_db holders changes) "0xdead" [] =
    (Returned VNone, ["balance 0xdead"]) /\
  truthy VNone = false /\
  truthy (VList [VNone]) = true /\
  get_token_balance (ledger_db holders changes) "0xdead" [] =
    (Returned (VDict [("result", VList [VNone])]), ["balance 0xdead"]).
Proof.
  split; [reflexivity | split; [reflexivity |]].
  destruct (balance_always_success (ledger_db holders changes) "0xdead"
              [] ["balance 0xdead"] VNone eq_refl) as (Htrue & Hrun & _).
  split; [exact Htrue | exact Hrun].
Defined.

(** The balance route at a holder of the ledger. *)
Lemma balance_result_is_collaborator_value_witness :
  exists body,
    get_token_balance (ledger_db holders changes) "0xb0b" ["top"] =
      (Returned body, ["balance 0xb0b"; "top"]) /\
    body = VDict [("result", VList [VInt 70])] /\
    getitem body "result" = Some (VList [VInt 70]).
Proof.
  apply (balance_result_is_collaborator_value (ledger_db holders changes)
           "0xb0b" ["top"] ["balance 0xb0b"; "top"] (VInt 70)).
  reflexivity.
Defined.

(** The top-holders route on the three holders of the ledger, which are
    not sorted. *)
Lemma top_holders_order_kept_witness :
  get_top_holders (ledger_db holders changes) [] =
    (Returned
       (VDict [("result",
                VList [VList [VList [VStr "0xb0b"; VInt 70];
                              VList [VStr "0xa11ce"; VInt 900];
                              VList [VStr "0xcafe"; VInt 5]]])]),
     ["top"]).
Proof.
  apply (top_holders_order_kept (ledger_db holders changes) [] ["top"]
           [VList [VStr "0xb0b"; VInt 70];
            VList [VStr "0xa11ce"; VInt 900];
            VList [VStr "0xcafe"; VInt 5]]).
  reflexivity.
Defined.

(** The weekly route on two databases that agree on the weekly change of
    one address, with two different [env_vars]. *)
Lemma weekly_independent_of_env_vars_witness :
  get_holder_weekly_change (ledger_db holders changes)
    (VDict []) "0xb0b" [] =
  get_holder_weekly_change (ledger_db [] changes)
    (VDict [("network", VStr "mainnet")]) "0xb0b" [].
Proof.
  apply (weekly_independent_of_env_vars (ledger_db holders changes)
           (ledger_db [] changes) (VDict [])
           (VDict [("network", VStr "mainnet")]) "0xb0b" [] []).
  reflexivity.
Defined.

(** The three query routes on a database whose every query raises. *)
Lemma collaborator_exceptions_propagate_witness :
  get_token_balance (broken_db "ConnectionError") "0xb0b" [] =
    (Raised "ConnectionError", ["balance 0xb0b"]) /\
  get_top_holders (broken_db "ConnectionError") [] =
    (Raised "ConnectionError", ["top"]) /\
  get_holder_weekly_change (broken_db "ConnectionError") VNone "0xb0b" [] =
    (Raised "ConnectionError", ["weekly 0xb0b"]).
Proof.
  destruct (collaborator_exceptions_propagate (broken_db "ConnectionError")
              VNone "0xb0b" [] "ConnectionError") as (Hbalance & Htop & Hweekly).
  split; [| split].
  - apply (Hbalance ["balance 0xb0b"]). reflexivity.
  - apply (Htop ["top"]). reflexivity.
  - apply (Hweekly ["weekly 0xb0b"]). reflexivity.
Defined.

(** The shape of the response of GET /top over an empty ledger. *)
Lemma response_has_one_key_witness :
  exists k v,
    VDict [("result", VList [VList []])] = VDict [(k, v)] /\
    keys (VDict [("result", VList [VList []])]) = [k] /\
    (k = "result" \/ k = "error").
Proof.
  apply (response_has_one_key (ledger_db [] []) GetTop [] ["top"]
           (VDict [("result", VList [VList []])])).
  reflexivity.
Defined.

(** The top-holders and weekly routes over an empty ledger: no holder, no
    weekly change. *)
Lemma top_and_weekly_always_success_witness :
  truthy (VList []) = false /\
  get_top_holders (ledger_db [] []) [] =
    (Returned (VDict [("result", VList [VList []])]), ["top"]) /\
  get_holder_weekly_change (ledger_db [] []) VNone "0xdead" [] =
    (Returned (VDict [("result", VList [VNone])]), ["weekly 0xdead"]).
Proof.
  destruct (top_and_weekly_always_success (ledger_db [] []) VNone "0xdead" [])
    as (Htop & Hweekly).
  split; [reflexivity | split].
  - apply (Htop (VList []) ["top"]). reflexivity.
  - apply (Hweekly VNone ["weekly 0xdead"]). reflexivity.
Defined.

(** * The router as a whole *)

Section RouterRuns.

Context {world exn : Type}.
Variable db : database world exn.

(** The outcome of a request, from the outcome of the call its handler
    gathers. *)
Lemma router_run (req : request) (w : world) :
  router db req w =
  match collaborator_outcome db req w with
  | None =>
      (Returned
         (VDict [("message",
                  VStr "🪙 Token indexer server is up and running!")]), w)
  | Some (Returned v, w') => (Returned (VDict [("result", VList [v])]), w')
  | Some (Raised e, w') => (Raised e, w')
  end.
Proof.
  destruct req as [| address | | env_vars address];
    unfold collaborator_outcome; simpl.
  - reflexivity.
  - apply get_token_balance_run.
  - apply get_top_holders_run.
  - apply get_holder_weekly_change_run.
Qed.

End RouterRuns.

Section Coverage.

Context {world exn : Type}.
Variable db : database world exn.

(** X1. No response that the router returns has an "error" key: the only
    key is "message" for GET / and "result" for each of the three query
    routes. *)
Theorem router_never_error_key (req : request) (w w' : world) (r : value) :
  router db req w = (Returned r, w') ->
  getitem r "error" = None /\
  keys r = [match req with GetRoot => "message" | _ => "result" end].
Proof.
  rewrite router_run.
  destruct (collaborator_outcome db req w) as [[[v | e] w1] |] eqn:Hcall;
    intros Hrun; inversion Hrun; subst r.
  - destruct req; [discriminate Hcall | split; reflexivity ..].
  - destruct req; [split; reflexivity | discriminate Hcall ..].
Qed.

(** X2. The outcome of a request depends on the database only through the
    one call its handler gathers: two databases on which that call has the
    same outcome give the request the same outcome, whatever their other
    functions do; GET / has the same outcome on all databases. *)
Theorem router_depends_on_own_call
  (db' : database world exn) (req : request) (w : world) :
  collaborator_outcome db req w = collaborator_outcome db' req w ->
  router db req w = router db' req w.
Proof.
  intros Hsame. rewrite (router_run db'), (router_run db), Hsame. reflexivity.
Qed.

(** X3. Over a database that records its calls, a request adds to the
    record exactly the calls of its handler (one call of its own
    collaborator with the address of the path as it came, none for GET /)
    and has otherwise the outcome and the world it has over the database
    itself. *)
Theorem router_calls_once (req : request) (w : world) (log : list call) :
  router (traced db) req (w, log) =
  (fst (router db req w), (snd (router db req w), (calls_of req ++ log)%list)).
Proof.
  rewrite !router_run. unfold collaborator_outcome.
  destruct req as [| address | | env_vars address]; simpl.
  - reflexivity.
  - destruct (retrieve_balance db address w) as [[v | e] w1]; reflexivity.
  - destruct (retrieve_top_balances db w) as [[v | e] w1]; reflexivity.
  - destruct (retrieve_holder_weekly_change db address w) as [[v | e] w1];
      reflexivity.
Qed.

(** X4. The response to a query determines the value the collaborator
    returned: when two requests, on any routes, databases and worlds, get
    the same response, their collaborators returned the same value. *)
Theorem response_determines_value
  (db' : database world exn) (req req' : request)
  (w w1 w' w1' : world) (v v' : value) :
  collaborator_outcome db req w = Some (Returned v, w1) ->
  collaborator_outcome db' req' w' = Some (Returned v', w1') ->
  fst (router db req w) = fst (router db' req' w') ->
  v = v'.
Proof.
  intros Hv Hv'. rewrite !router_run, Hv, Hv'. simpl.
  intros Hsame. congruence.
Qed.

(** X5. A handler raises nothing of its own: a request raises [e] and
    leaves the world [w'] exactly when the call its handler gathers raised
    [e] and left [w']; GET /, which gathers no call, does not raise. *)
Theorem router_raises_iff_collaborator
  (req : request) (w w' : world) (e : exn) :
  router db req w = (Raised e, w') <->
  collaborator_outcome db req w = Some (Raised e, w').
Proof.
  rewrite router_run.
  destruct (collaborator_outcome db req w) as [[[v | e1] w1] |];
    split; intros H; try discriminate; congruence.
Qed.

End Coverage.

(** ** Instances on the sample collaborators *)

(** An absent address on the balance route: the only key is "result". *)
Lemma router_never_error_key_witness :
  getitem (VDict [("result", VList [VNone])]) "error" = None /\
  keys (VDict [("result", VList [VNone])]) = ["result"].
Proof.
  apply (router_never_error_key (ledger_db holders changes)
           (GetBalance "0xdead") [] ["balance 0xdead"]
           (VDict [("result", VList [VNone])])).
  reflexivity.
Defined.

(** Two ledgers with the same balances and different weekly changes, on the
    balance route. *)
Lemma router_depends_on_own_call_witness :
  router (ledger_db holders changes) (GetBalance "0xb0b") [] =
  router (ledger_db holders []) (GetBalance "0xb0b") [].
Proof.
  apply (router_depends_on_own_call (ledger_db holders changes)
           (ledger_db holders []) (GetBalance "0xb0b") []).
  reflexivity.
Defined.

(** A weekly change of zero and a balance of zero, on two routes and two
    ledgers, get the same response. *)
Lemma response_determines_value_witness :
  fst (router (ledger_db holders changes) (GetWeekly VNone "0xa11ce") []) =
    fst (router (ledger_db [("0xnew", VInt 0)] []) (GetBalance "0xnew") [])
  /\ VInt 0 = VInt 0.
Proof.
  split; [reflexivity |].
  apply (response_determines_value (ledger_db holders changes)
           (ledger_db [("0xnew", VInt 0)] [])
           (GetWeekly VNone "0xa11ce") (GetBalance "0xnew")
           [] ["weekly 0xa11ce"] [] ["balance 0xnew"]);
    reflexivity.
Defined.

(** The top-holders route over a database whose every query raises. *)
Lemma router_raises_iff_collaborator_witness :
  router (broken_db "ConnectionError") GetTop [] =
  (Raised "ConnectionError", ["top"]).
Proof.
  apply (proj2 (router_raises_iff_collaborator
                  (broken_db "ConnectionError") GetTop [] ["top"]
                  "ConnectionError")).
  reflexivity.
Defined.

(** * The gather and the plain await *)

Section GatherTask.

Context {outside exn : Type}.
Variable db : database (Tasks.state outside) exn.

(** A coroutine in a task of its own answers and acts outside the process
    as it does when awaited directly, and leaves the context of the
    awaiting task as it was. *)
Lemma in_task_run {A : Type} (c : task (Tasks.state outside) exn A)
  (s : Tasks.state outside) :
  Tasks.response (Tasks.in_task c s) = Tasks.response (c s) /\
  Tasks.outside_after (Tasks.in_task c s) = Tasks.outside_after (c s) /\
  Tasks.context_after (Tasks.in_task c s) = fst s.
Proof.
  unfold Tasks.in_task, Tasks.response, Tasks.outside_after,
    Tasks.context_after.
  destruct (c s) as [o s']. repeat split.
Qed.

(** What a handler of [Tasks] computes from an awaitable [c], when it
    gathers it and when it awaits it. *)
Ltac run_task_handler c :=
  unfold await, Tasks.gather, Tasks.in_task, bind, ret;
  destruct c as [[v | e] [ctx' w']]; reflexivity.

Lemma task_get_token_balance_run (address : string)
  (s : Tasks.state outside) :
  Tasks.get_token_balance db address s =
    Tasks.in_task (Tasks.get_token_balance_plain db address) s /\
  Tasks.get_token_balance_plain db address s =
    match retrieve_balance db address s with
    | (Returned v, s') => (Returned (VDict [("result", VList [v])]), s')
    | (Raised e, s') => (Raised e, s')
    end.
Proof.
  unfold Tasks.get_token_balance, Tasks.get_token_balance_plain.
  split; run_task_handler (retrieve_balance db address s).
Qed.

Lemma task_get_top_holders_run (s : Tasks.state outside) :
  Tasks.get_top_holders db s =
    Tasks.in_task (Tasks.get_top_holders_plain db) s /\
  Tasks.get_top_holders_plain db s =
    match retrieve_top_balances db s with
    | (Returned v, s') => (Returned (VDict [("result", VList [v])]), s')
    | (Raised e, s') => (Raised e, s')
    end.
Proof.
  unfold Tasks.get_top_holders, Tasks.get_top_holders_plain.
  split; run_task_handler (retrieve_top_balances db s).
Qed.

Lemma task_get_holder_weekly_change_run (env_vars : value)
  (address : string) (s : Tasks.state outside) :
  Tasks.get_holder_weekly_change db env_vars address s =
    Tasks.in_task (Tasks.get_holder_weekly_change_plain db env_vars address) s /\
  Tasks.get_holder_weekly_change_plain db env_vars address s =
    match retrieve_holder_weekly_change db address s with
    | (Returned v, s') => (Returned (VDict [("result", VList [v])]), s')
    | (Raised e, s') => (Raised e, s')
    end.
Proof.
  unfold Tasks.get_holder_weekly_change, Tasks.get_holder_weekly_change_plain.
  split; run_task_handler (retrieve_holder_weekly_change db address s).
Qed.

(** The handlers of [Routes] are the handlers of [Tasks] seen from outside
    the process: run in the context [ctx], a handler of [Tasks] answers and
    acts outside as the handler of [Routes] does on the database seen from
    [ctx], and it leaves [ctx] as it was. *)
Lemma task_handlers_seen_from_outside (env_vars : value) (address : string)
  (ctx : Tasks.context) (w : outside) :
  Tasks.get_token_balance db address (ctx, w) =
    (fst (get_token_balance (Tasks.seen_from_outside db ctx) address w),
     (ctx, snd (get_token_balance (Tasks.seen_from_outside db ctx) address w)))
  /\
  Tasks.get_top_holders db (ctx, w) =
    (fst (get_top_holders (Tasks.seen_from_outside db ctx) w),
     (ctx, snd (get_top_holders (Tasks.seen_from_outside db ctx) w)))
  /\
  Tasks.get_holder_weekly_change db env_vars address (ctx, w) =
    (fst (get_holder_weekly_change (Tasks.seen_from_outside db ctx)
            env_vars address w),
     (ctx, snd (get_holder_weekly_change (Tasks.seen_from_outside db ctx)
                  env_vars address w))).
Proof.
  rewrite get_token_balance_run, get_top_holders_run,
    get_holder_weekly_change_run.
  unfold Tasks.get_token_balance, Tasks.get_top_holders,
    Tasks.get_holder_weekly_change, await, Tasks.gather, Tasks.in_task,
    bind, ret; simpl.
  repeat split.
  - destruct (retrieve_balance db address (ctx, w)) as [[v | e] [ctx' w']];
      reflexivity.
  - destruct (retrieve_top_balances db (ctx, w)) as [[v | e] [ctx' w']];
      reflexivity.
  - destruct (retrieve_holder_weekly_change db address (ctx, w))
      as [[v | e] [ctx' w']]; reflexivity.
Qed.


End GatherTask.

